(** * The React context demo: user and theme state of a small view tree

    A shallow embedding of the TypeScript sources

    - [data.ts]                      ([User], [defaultUser]),
    - [context/user.tsx]             ([UserContext], [UserProvider]),
    - [App.tsx]                      ([App]),
    - [components/Header.tsx]        ([Header], [handleLogin]),
    - [components/DarkModeToggle.tsx]([DarkModeToggle], [handleToggleTheme]),
    - [components/ThemedButton.tsx]  ([ThemedButton]),
    - [components/Profile.tsx]       ([Profile]),

    together with the part of the host framework the components rely on:
    hook state kept in a store, state setters as store transformers, the
    context lookup, and the render pass that calls the component functions
    of a tree of elements.  Component functions are translated one by one;
    the render pass is the framework's contract, written out once in
    [render] and [render_pass]. *)

From Stdlib Require Import String List Bool.
Import ListNotations.
Open Scope string_scope.
Set Warnings "-register-all".

(** ** data.ts *)

Record User : Type := mkUser { name : string; interests : list string }.

Definition defaultUser : User :=
  {| name := "Duane";
     interests := ["Coding"; "Biking"; "Words ending in 'ing'"] |}.

(** ** JavaScript values and failures *)

(** A property of an object, or a variable: either absent ([undefined]) or
    holding a value.  [User | null] is [option User]; a destructured
    property of type [User | null] is [JSField (option User)]. *)
Inductive JSField (A : Type) : Type :=
| undefined : JSField A
| defined (a : A) : JSField A.
Arguments undefined {A}.
Arguments defined {A} a.

Inductive JSError : Type :=
| NotAFunction (callee_name : string)      (* TypeError: f is not a function *)
| CannotDestructure (what : string).       (* TypeError: cannot destructure undefined *)

(** ** Hook state *)

(** One slot per [useState] call of the mounted tree: the two of [App]
    (App.tsx lines 9-10) and the one of [UserProvider] (user.tsx line 19). *)
Record Store : Type := mkStore {
  App_theme : string;
  App_user : option User;
  UserProvider_user : option User
}.

(** An event handler runs against the store and either throws or leaves
    an updated store. *)
Definition Handler : Type := Store -> JSError + Store.

(** The initial arguments of the three [useState] calls. *)
Definition initial : Store :=
  {| App_theme := "dark"; App_user := None; UserProvider_user := None |}.

(** The setters returned by the three [useState] calls. *)
Definition App_setTheme (theme : string) : Handler :=
  fun s => inr {| App_theme := theme;
                  App_user := App_user s;
                  UserProvider_user := UserProvider_user s |}.

Definition App_setUser (u : option User) : Handler :=
  fun s => inr {| App_theme := App_theme s;
                  App_user := u;
                  UserProvider_user := UserProvider_user s |}.

Definition UserProvider_setUser (u : option User) : Handler :=
  fun s => inr {| App_theme := App_theme s;
                  App_user := App_user s;
                  UserProvider_user := u |}.

(** Calling a variable that may be [undefined]. *)
Definition call {A : Type} (callee_name : string)
    (f : JSField (A -> Handler)) (a : A) : Handler :=
  match f with
  | defined g => g a
  | undefined => fun _ => inl (NotAFunction callee_name)
  end.

(** ** context/user.tsx *)

(** The object carried by the context.  The interface declares both
    properties, but the default value is [{} as UserContextType], so at
    run time each of them may be absent. *)
Record UserContextType : Type := mkCtx {
  user : JSField (option User);
  setUser : JSField (option User -> Handler)
}.

Record Context (T : Type) : Type := createContext { defaultValue : JSField T }.
Arguments createContext {T} defaultValue.
Arguments defaultValue {T} c.

(** [React.createContext({} as UserContextType)]. *)
Definition UserContext : Context UserContextType :=
  createContext (defined {| user := undefined; setUser := undefined |}).

(** [useContext(c)]: the value of the nearest enclosing provider, or the
    context's default value when there is none. *)
Definition useContext {T : Type} (c : Context T) (provided : option T)
    : JSField T :=
  match provided with
  | Some v => defined v
  | None => defaultValue c
  end.

(** [const { ... } = v]: destructuring [undefined] throws. *)
Definition destructure {T : Type} (what : string) (v : JSField T)
    : JSError + T :=
  match v with
  | defined o => inr o
  | undefined => inl (CannotDestructure what)
  end.

(** Truthiness of a [user] variable: objects are truthy, [null] and
    [undefined] are not. *)
Definition truthy (u : JSField (option User)) : bool :=
  match u with
  | defined (Some _) => true
  | defined None => false
  | undefined => false
  end.

(** ** Elements *)

Record ChangeEvent : Type := mkChange { target_checked : bool }.

Inductive Attr : Type :=
| className (c : string)
| className_undefined                      (* className={undefined} *)
| type_ (t : string)
| checked (b : bool)
| onClick (h : Handler)
| onChange (h : ChangeEvent -> Handler).

(** What JSX evaluates to: text, host elements, and component elements
    carrying their props.  Component elements are not yet called. *)
Inductive Element : Type :=
| Text (s : string)
| Host (tag : string) (attrs : list Attr) (children : list Element)
| UserContext_Provider (value : UserContextType) (children : list Element)
| E_App
| E_UserProvider (children : list Element)
| E_Header (theme : string) (setTheme : string -> Handler)
| E_Profile (theme : string)
| E_ThemedButton (theme : string) (props : list Attr) (children : list Element)
| E_DarkModeToggle (theme : string) (setTheme : string -> Handler)
| E_Interests (interests : list string) (theme : string).

(** ** App.tsx *)

Definition App (s : Store) : Element :=
  let theme := App_theme s in
  let setTheme := App_setTheme in
  Host "main" [className theme]
    [E_UserProvider [E_Header theme setTheme; E_Profile theme]].

(** ** context/user.tsx, the provider component *)

Definition UserProvider (s : Store) (children : list Element) : Element :=
  let user := UserProvider_user s in
  let setUser := UserProvider_setUser in
  UserContext_Provider {| user := defined user; setUser := defined setUser |}
    children.

(** ** components/ThemedButton.tsx *)

(** [<button className={theme} {...props} />]: the spread comes after
    [className], and carries the children. *)
Definition ThemedButton (theme : string) (props : list Attr)
    (children : list Element) : Element :=
  Host "button" (className theme :: props) children.

(** ** components/DarkModeToggle.tsx *)

Definition handleToggleTheme (setTheme : string -> Handler)
    (e : ChangeEvent) : Handler :=
  setTheme (if target_checked e then "dark" else "light").

Definition DarkModeToggle (theme : string) (setTheme : string -> Handler)
    : Element :=
  Host "label" []
    [Text "Dark Mode";
     Host "input"
       [type_ "checkbox";
        checked (String.eqb theme "dark");
        onChange (handleToggleTheme setTheme)]
       []].

(** ** components/Header.tsx *)

Definition handleLogin (user : JSField (option User))
    (setUser : JSField (option User -> Handler)) : Handler :=
  if truthy user then call "setUser" setUser None
  else call "setUser" setUser (Some defaultUser).

Definition Header (provided : option UserContextType)
    (theme : string) (setTheme : string -> Handler) : JSError + Element :=
  match destructure "useContext(...)" (useContext UserContext provided) with
  | inl err => inl err
  | inr ctx =>
    let user := user ctx in
    let setUser := setUser ctx in
    inr (Host "header" []
           [Host "h1" [] [Text "React Context"];
            Host "nav" []
              [E_ThemedButton theme [onClick (handleLogin user setUser)]
                 [Text (if truthy user then "Logout" else "Login")];
               E_DarkModeToggle theme setTheme]])
  end.

(** ** components/Profile.tsx *)

Definition Profile (provided : option UserContextType) (theme : string)
    : JSError + Element :=
  match destructure "useContext(...)" (useContext UserContext provided) with
  | inl err => inl err
  | inr ctx =>
    match user ctx with
    | defined (Some user) =>
        inr (Host "div" []
               [Host "h2" [] [Text (name user); Text "'s Profile"];
                E_Interests (interests user) theme])
    | _ => inr (Host "h2" [] [Text "Please Login To View Profile"])
    end
  end.

(** ** The render pass *)

Inductive Component : Type :=
| C_App | C_UserProvider | C_Header | C_ThemedButton
| C_DarkModeToggle | C_Profile | C_Interests.

Definition Component_eqb (a b : Component) : bool :=
  match a, b with
  | C_App, C_App | C_UserProvider, C_UserProvider | C_Header, C_Header
  | C_ThemedButton, C_ThemedButton | C_DarkModeToggle, C_DarkModeToggle
  | C_Profile, C_Profile | C_Interests, C_Interests => true
  | _, _ => false
  end.

(** One call of a component function during a pass.  [consumed] records,
    for a component that calls [useContext(UserContext)], the [user]
    property of the object it received. *)
Record Call : Type := mkCall {
  callee : Component;
  consumed : option (JSField (option User))
}.

(** What ends up on the page.  [components/Interests.tsx] is not part of
    the sources at hand: a call of it is kept as a leaf with its props. *)
Inductive Dom : Type :=
| DText (s : string)
| DNode (tag : string) (attrs : list Attr) (children : list Dom)
| DInterests (interests : list string) (theme : string).

Inductive Outcome (A : Type) : Type :=
| Done (a : A)
| Thrown (e : JSError)
| OutOfFuel.
Arguments Done {A} a.
Arguments Thrown {A} e.
Arguments OutOfFuel {A}.

Definition bind {A B : Type} (m : Outcome A) (k : A -> Outcome B)
    : Outcome B :=
  match m with
  | Done a => k a
  | Thrown e => Thrown e
  | OutOfFuel => OutOfFuel
  end.

Definition lift {A : Type} (r : JSError + A) : Outcome A :=
  match r with
  | inr a => Done a
  | inl e => Thrown e
  end.

Definition Rendered : Type := (list Dom * list Call)%type.

Definition consumed_user (provided : option UserContextType)
    : JSField (option User) :=
  match useContext UserContext provided with
  | defined ctx => user ctx
  | undefined => undefined
  end.

(** Renders an element under the store [s] and the value [provided] of
    the nearest enclosing [UserContext.Provider].  Every component element
    met is called once, its call logged, and its output rendered in turn;
    calls are logged in the order they happen (parent first, siblings left
    to right).  A text child that is the empty string leaves no node on
    the page.  [fuel] bounds the nesting depth. *)
Fixpoint render (fuel : nat) (s : Store) (provided : option UserContextType)
    (e : Element) {struct fuel} : Outcome Rendered :=
  match fuel with
  | O => OutOfFuel
  | S n =>
    let render_all (provided : option UserContextType) :=
      fix go (es : list Element) : Outcome Rendered :=
        match es with
        | [] => Done ([], [])
        | e :: es' =>
            bind (render n s provided e) (fun r1 =>
            bind (go es') (fun r2 =>
            Done ((fst r1 ++ fst r2)%list, (snd r1 ++ snd r2)%list)))
        end in
    let called (c : Component) (read : option (JSField (option User)))
               (out : JSError + Element) :=
      bind (lift out) (fun e' =>
      bind (render n s provided e') (fun r =>
      Done (fst r, mkCall c read :: snd r))) in
    match e with
    | Text t =>
        match t with
        | EmptyString => Done ([], [])
        | String _ _ => Done ([DText t], [])
        end
    | Host tag attrs children =>
        bind (render_all provided children) (fun r =>
        Done ([DNode tag attrs (fst r)], snd r))
    | UserContext_Provider value children =>
        render_all (Some value) children
    | E_App => called C_App None (inr (App s))
    | E_UserProvider children =>
        called C_UserProvider None (inr (UserProvider s children))
    | E_Header theme setTheme =>
        called C_Header (Some (consumed_user provided))
          (Header provided theme setTheme)
    | E_Profile theme =>
        called C_Profile (Some (consumed_user provided))
          (Profile provided theme)
    | E_ThemedButton theme props children =>
        called C_ThemedButton None (inr (ThemedButton theme props children))
    | E_DarkModeToggle theme setTheme =>
        called C_DarkModeToggle None (inr (DarkModeToggle theme setTheme))
    | E_Interests interests theme =>
        Done ([DInterests interests theme], [mkCall C_Interests None])
    end
  end.

(** The view tree is ten levels deep at most. *)
Definition depth : nat := 16.

(** Mounting the root: [<App />] outside any provider. *)
Definition mount (s : Store) : Outcome Rendered :=
  render depth s None E_App.

(** The first [<UserProvider>] element of an element tree, through host
    elements only: the element the parent's last render left in place. *)
Fixpoint first_UserProvider (e : Element) : option Element :=
  match e with
  | E_UserProvider _ => Some e
  | Host _ _ children =>
      (fix go (es : list Element) : option Element :=
         match es with
         | [] => None
         | c :: es' =>
             match first_UserProvider c with
             | Some p => Some p
             | None => go es'
             end
         end) children
  | _ => None
  end.

(** [Object.is] on the values the state slots hold.  Two user objects are
    compared by their content; the only object ever stored is the single
    module-level [defaultUser]. *)
Definition User_eqb (a b : User) : bool :=
  String.eqb (name a) (name b)
  && if list_eq_dec string_dec (interests a) (interests b)
     then true else false.

Definition Object_is (a b : option User) : bool :=
  match a, b with
  | None, None => true
  | Some x, Some y => User_eqb x y
  | _, _ => false
  end.

Inductive Root : Type := FromApp | FromUserProvider | NoRender.

(** Which component is re-rendered after a handler changed the store from
    [s] to [s']: the owner of a state slot whose value changed, the
    outermost one if several did; nothing if no slot changed.  (After a
    write of the value a slot already holds the framework may still call
    the owner once before it gives up; that call is not modelled, and no
    property below rests on such a pass being empty.) *)
Definition scheduled (s s' : Store) : Root :=
  if negb (String.eqb (App_theme s) (App_theme s'))
     || negb (Object_is (App_user s) (App_user s'))
  then FromApp
  else if negb (Object_is (UserProvider_user s) (UserProvider_user s'))
  then FromUserProvider
  else NoRender.

(** The render pass that follows a handler.  A pass from [UserProvider]
    re-renders the provider element that [App] last returned; its
    consumers are re-rendered because the provider's value is a new
    object. *)
Definition render_pass (s s' : Store) : Outcome Rendered :=
  match scheduled s s' with
  | FromApp => render depth s' None E_App
  | FromUserProvider =>
      match first_UserProvider (App s) with
      | Some p => render depth s' None p
      | None => Done ([], [])
      end
  | NoRender => Done ([], [])
  end.

(** ** Reading the page *)

(** The first node with the given tag, in document order. *)
Fixpoint find_node (tag : string) (d : Dom) : option (list Attr * list Dom) :=
  match d with
  | DText _ => None
  | DInterests _ _ => None
  | DNode t attrs children =>
      if String.eqb t tag then Some (attrs, children)
      else
        (fix go (ds : list Dom) : option (list Attr * list Dom) :=
           match ds with
           | [] => None
           | c :: ds' =>
               match find_node tag c with
               | Some r => Some r
               | None => go ds'
               end
           end) children
  end.

Definition find_in_page (tag : string) (page : list Dom)
    : option (list Attr * list Dom) :=
  match page with
  | d :: _ => find_node tag d
  | [] => None
  end.

(** The value of an attribute; where it is given twice the later one
    wins. *)
Fixpoint get_onClick (attrs : list Attr) : option Handler :=
  match attrs with
  | [] => None
  | a :: rest =>
      match get_onClick rest with
      | Some h => Some h
      | None => match a with onClick h => Some h | _ => None end
      end
  end.

Fixpoint get_onChange (attrs : list Attr) : option (ChangeEvent -> Handler) :=
  match attrs with
  | [] => None
  | a :: rest =>
      match get_onChange rest with
      | Some h => Some h
      | None => match a with onChange h => Some h | _ => None end
      end
  end.

Fixpoint prop_className (attrs : list Attr) : option (JSField string) :=
  match attrs with
  | [] => None
  | a :: rest =>
      match prop_className rest with
      | Some v => Some v
      | None =>
          match a with
          | className c => Some (defined c)
          | className_undefined => Some undefined
          | _ => None
          end
      end
  end.

(** The class an element ends up with: none when the key is absent or
    holds [undefined]. *)
Definition get_className (attrs : list Attr) : option string :=
  match prop_className attrs with
  | Some (defined c) => Some c
  | _ => None
  end.

Definition page (s : Store) : list Dom :=
  match mount s with
  | Done r => fst r
  | _ => []
  end.

(** The login/logout control is the page's only button; its label is the
    button's content. *)
Definition button_label (s : Store) : option (list Dom) :=
  match find_in_page "button" (page s) with
  | Some (_, children) => Some children
  | None => None
  end.

(** Activating the control runs the click handler that the current page
    carries. *)
Definition click_button (s : Store) : option (JSError + Store) :=
  match find_in_page "button" (page s) with
  | Some (attrs, _) =>
      match get_onClick attrs with
      | Some h => Some (h s)
      | None => None
      end
  | None => None
  end.

(** Changing the dark-mode checkbox runs the change handler of the page's
    only input. *)
Definition change_checkbox (e : ChangeEvent) (s : Store)
    : option (JSError + Store) :=
  match find_in_page "input" (page s) with
  | Some (attrs, _) =>
      match get_onChange attrs with
      | Some h => Some (h e s)
      | None => None
      end
  | None => None
  end.

(** The class applied at the root. *)
Definition root_className (s : Store) : option string :=
  match find_in_page "main" (page s) with
  | Some (attrs, _) => get_className attrs
  | None => None
  end.

(** All handlers a page carries. *)
Fixpoint handlers (d : Dom) : list Attr :=
  match d with
  | DText _ => []
  | DInterests _ _ => []
  | DNode _ attrs children =>
      (filter (fun a => match a with
                        | onClick _ | onChange _ => true
                        | _ => false
                        end) attrs
       ++ (fix go (ds : list Dom) : list Attr :=
             match ds with
             | [] => []
             | c :: ds' => handlers c ++ go ds'
             end) children)%list
  end.

Definition controls (s : Store) : list Attr :=
  flat_map handlers (page s).

(** A user-interface event on a control. *)
Definition fires (a : Attr) (s s' : Store) : Prop :=
  match a with
  | onClick h => h s = inr s'
  | onChange h => exists e : ChangeEvent, h e s = inr s'
  | _ => False
  end.

(** States reachable from the freshly mounted tree through the controls
    the page shows. *)
Inductive reachable : Store -> Prop :=
| reach_initial : reachable initial
| reach_event (s s' : Store) (a : Attr) :
    reachable s -> In a (controls s) -> fires a s s' -> reachable s'.

(** ** Subscribers and notifications *)

(** The subscribers of the user context are the mounted components that
    call [useContext(UserContext)]. *)
Definition consumers (log : list Call) : list Component :=
  map callee (filter (fun c => match consumed c with
                               | Some _ => true
                               | None => false
                               end) log).

Definition subscribers (s : Store) : list Component :=
  match mount s with
  | Done r => consumers (snd r)
  | _ => []
  end.

(** The values a pass delivered to component [c], one per call. *)
Fixpoint deliveries (c : Component) (log : list Call)
    : list (JSField (option User)) :=
  match log with
  | [] => []
  | k :: rest =>
      match consumed k with
      | Some v => if Component_eqb (callee k) c
                  then v :: deliveries c rest else deliveries c rest
      | None => deliveries c rest
      end
  end.

(** The components a pass called. *)
Definition invoked (log : list Call) : list Component := map callee log.

(** The log of the pass that follows a handler, when the pass completes. *)
Definition pass_log (s s' : Store) : option (list Call) :=
  match render_pass s s' with
  | Done r => Some (snd r)
  | _ => None
  end.

(** The log of mounting the tree. *)
Definition mount_log (s : Store) : option (list Call) :=
  match mount s with
  | Done r => Some (snd r)
  | _ => None
  end.

(** The two views [Profile] can return. *)
Definition placeholder : Element :=
  Host "h2" [] [Text "Please Login To View Profile"].

Definition profile_view (u : User) (theme : string) : Element :=
  Host "div" []
    [Host "h2" [] [Text (name u); Text "'s Profile"];
     E_Interests (interests u) theme].

(** The text of a heading made of text children only. *)
Fixpoint heading_text (children : list Element) : string :=
  match children with
  | Text t :: rest => t ++ heading_text rest
  | _ => ""
  end.

(** The calls of a pass over the provider's subtree when the user value
    is [v], in order. *)
Definition subtree_calls (v : option User) : list Call :=
  [mkCall C_UserProvider None;
   mkCall C_Header (Some (defined v));
   mkCall C_ThemedButton None;
   mkCall C_DarkModeToggle None;
   mkCall C_Profile (Some (defined v))]
  ++ match v with
     | Some _ => [mkCall C_Interests None]
     | None => []
     end.

(** No listed component is called in the pass. *)
Definition never_invokes (listeners : list Component) (log : list Call)
    : Prop :=
  forall c, In c listeners -> ~ In c (invoked log).

(** ** More readings of the page *)

Fixpoint get_checked (attrs : list Attr) : option bool :=
  match attrs with
  | [] => None
  | a :: rest =>
      match get_checked rest with
      | Some b => Some b
      | None => match a with checked b => Some b | _ => None end
      end
  end.

(** The class of the page's button. *)
Definition button_className (s : Store) : option string :=
  match find_in_page "button" (page s) with
  | Some (attrs, _) => get_className attrs
  | None => None
  end.

(** The click handler the page's button carries. *)
Definition button_handler (s : Store) : option Handler :=
  match find_in_page "button" (page s) with
  | Some (attrs, _) => get_onClick attrs
  | None => None
  end.

(** Whether the page's checkbox is shown checked. *)
Definition checkbox_checked (s : Store) : option bool :=
  match find_in_page "input" (page s) with
  | Some (attrs, _) => get_checked attrs
  | None => None
  end.

(** The content of the page's second-level heading, the one [Profile]
    returns. *)
Definition profile_heading (s : Store) : option (list Dom) :=
  match find_in_page "h2" (page s) with
  | Some (_, children) => Some children
  | None => None
  end.

(** The props of every [Interests] call on the page. *)
Fixpoint interests_leaves (d : Dom) : list (list string * string) :=
  match d with
  | DText _ => []
  | DInterests i t => [(i, t)]
  | DNode _ _ children =>
      (fix go (ds : list Dom) : list (list string * string) :=
         match ds with
         | [] => []
         | c :: ds' => (interests_leaves c ++ go ds')%list
         end) children
  end.

Definition interests_on_page (s : Store) : list (list string * string) :=
  flat_map interests_leaves (page s).

(** How many times a pass called component [c]. *)
Fixpoint calls_of (c : Component) (log : list Call) : nat :=
  match log with
  | [] => 0
  | k :: rest =>
      if Component_eqb (callee k) c then S (calls_of c rest)
      else calls_of c rest
  end.

(** * Properties *)

(** ** Helper facts about the framework model *)

Lemma User_eqb_refl (u : User) : User_eqb u u = true.
Proof.
  unfold User_eqb. rewrite String.eqb_refl.
  destruct (list_eq_dec string_dec (interests u) (interests u)) as [_|ne].
  - reflexivity.
  - now elim ne.
Qed.

Lemma Object_is_refl (v : option User) : Object_is v v = true.
Proof. destruct v as [u|]; [apply User_eqb_refl | reflexivity]. Qed.

Lemma scheduled_user_write (t : string) (a u u' : option User) :
  Object_is u u' = false ->
  scheduled (mkStore t a u) (mkStore t a u') = FromUserProvider.
Proof.
  intros ne. unfold scheduled; simpl.
  now rewrite String.eqb_refl, Object_is_refl, ne.
Qed.

Lemma scheduled_theme_write (t t' : string) (a u : option User) :
  t <> t' ->
  scheduled (mkStore t a u) (mkStore t' a u) = FromApp.
Proof.
  intros ne. unfold scheduled; simpl.
  destruct (String.eqb_spec t t') as [e|_]; [now elim ne | reflexivity].
Qed.

Lemma scheduled_nothing (s : Store) : scheduled s s = NoRender.
Proof.
  unfold scheduled. now rewrite String.eqb_refl, !Object_is_refl.
Qed.

(** Mounting never runs out of fuel and never throws. *)
Lemma mount_done (s : Store) : exists r, mount s = Done r.
Proof.
  destruct s as [t a [[[|c n] i]|]]; eexists; vm_compute; reflexivity.
Qed.

(** The calls made by mounting, by a pass from the provider and by a pass
    from the root. *)
Lemma mount_log_is (s : Store) :
  mount_log s = Some (mkCall C_App None :: subtree_calls (UserProvider_user s)).
Proof. destruct s as [t a [[[|c n] i]|]]; vm_compute; reflexivity. Qed.

Lemma pass_log_user_write (t : string) (a u u' : option User) :
  Object_is u u' = false ->
  pass_log (mkStore t a u) (mkStore t a u') = Some (subtree_calls u').
Proof.
  intros ne. unfold pass_log, render_pass.
  rewrite (scheduled_user_write t a u u' ne).
  destruct u' as [[[|c n] i]|]; vm_compute; reflexivity.
Qed.

Lemma pass_log_theme_write (t t' : string) (a u : option User) :
  t <> t' ->
  pass_log (mkStore t a u) (mkStore t' a u) =
  Some (mkCall C_App None :: subtree_calls u).
Proof.
  intros ne. unfold pass_log, render_pass.
  rewrite (scheduled_theme_write t t' a u ne).
  destruct u as [[[|c n] i]|]; vm_compute; reflexivity.
Qed.

Lemma pass_log_nothing (s : Store) : pass_log s s = Some [].
Proof.
  unfold pass_log, render_pass. now rewrite scheduled_nothing.
Qed.

(** Each consumer appears once in the calls of the subtree. *)
Lemma deliveries_subtree (c : Component) (v : option User) :
  In c [C_Header; C_Profile] ->
  deliveries c (subtree_calls v) = [defined v]
  /\ deliveries c (mkCall C_App None :: subtree_calls v) = [defined v].
Proof.
  intros [<-|[<-|[]]]; destruct v as [w|]; split; reflexivity.
Qed.

Lemma App_not_in_subtree (v : option User) :
  ~ In C_App (invoked (subtree_calls v)).
Proof.
  destruct v as [w|]; simpl; intuition discriminate.
Qed.

(** The mounted consumers of the user context, in any state. *)
Lemma subscribers_are (s : Store) : subscribers s = [C_Header; C_Profile].
Proof. destruct s as [t a [[[|c n] i]|]]; reflexivity. Qed.

(** What the login/logout control does, in any state. *)
Lemma click_button_is (s : Store) :
  click_button s =
  Some (inr (mkStore (App_theme s) (App_user s)
               (match UserProvider_user s with
                | Some _ => None
                | None => Some defaultUser
                end))).
Proof. destruct s as [t a [[[|c n] i]|]]; reflexivity. Qed.

(** What the button shows, in any state. *)
Lemma button_label_is (s : Store) :
  button_label s =
  Some [DText (match UserProvider_user s with
               | Some _ => "Logout"
               | None => "Login"
               end)].
Proof. destruct s as [t a [[[|c n] i]|]]; reflexivity. Qed.

(** What the dark-mode checkbox does, in any state. *)
Lemma change_checkbox_is (e : ChangeEvent) (s : Store) :
  change_checkbox e s =
  Some (inr (mkStore (if target_checked e then "dark" else "light")
               (App_user s) (UserProvider_user s))).
Proof. destruct s as [t a [[[|c n] i]|]]; reflexivity. Qed.

(** The two controls of the page are the handlers the sources build. *)
Lemma controls_are (s : Store) :
  controls s =
  [onClick (handleLogin (defined (UserProvider_user s))
              (defined UserProvider_setUser));
   onChange (handleToggleTheme App_setTheme)].
Proof. destruct s as [t a [[[|c n] i]|]]; reflexivity. Qed.

(** The page carries exactly two controls: the button and the checkbox. *)
Lemma controls_fire (s s' : Store) (a : Attr) :
  In a (controls s) -> fires a s s' ->
  click_button s = Some (inr s')
  \/ exists e, change_checkbox e s = Some (inr s').
Proof.
  rewrite click_button_is.
  intros Hin Hf.
  assert (forall e, change_checkbox e s =
            Some (inr (mkStore (if target_checked e then "dark" else "light")
                         (App_user s) (UserProvider_user s)))) as Hc
    by (intro; apply change_checkbox_is).
  rewrite controls_are in Hin.
  destruct Hin as [<-|[<-|[]]]; simpl in Hf.
  - left. rewrite <- Hf. destruct s as [t a0 [u|]]; reflexivity.
  - right. destruct Hf as [e He]. exists e. rewrite Hc, <- He.
    destruct s as [t a0 u]; reflexivity.
Qed.

(** Every reachable user value is [null] or the default record, and the
    theme is one of the two strings. *)
Lemma reachable_inv (s : Store) :
  reachable s ->
  (UserProvider_user s = None \/ UserProvider_user s = Some defaultUser)
  /\ (App_theme s = "dark" \/ App_theme s = "light").
Proof.
  induction 1 as [|s s' a _ [IHu IHt] Hin Hf].
  - split; left; reflexivity.
  - destruct (controls_fire s s' a Hin Hf) as [Hc|[e Hc]].
    + rewrite click_button_is in Hc. inversion Hc; subst; simpl. split.
      * destruct (UserProvider_user s); [left | right]; reflexivity.
      * exact IHt.
    + rewrite change_checkbox_is in Hc. inversion Hc; subst; simpl. split.
      * exact IHu.
      * destruct (target_checked e); [left | right]; reflexivity.
Qed.

(** ** The model on concrete inputs *)

Example mount_initial_calls :
  mount_log initial =
  Some [mkCall C_App None; mkCall C_UserProvider None;
        mkCall C_Header (Some (defined None)); mkCall C_ThemedButton None;
        mkCall C_DarkModeToggle None; mkCall C_Profile (Some (defined None))].
Proof. vm_compute. reflexivity. Qed.

Example login_then_page :
  click_button initial = Some (inr (mkStore "dark" None (Some defaultUser)))
  /\ button_label (mkStore "dark" None (Some defaultUser)) =
       Some [DText "Logout"]
  /\ find_in_page "h2" (page (mkStore "dark" None (Some defaultUser))) =
       Some ([], [DText "Duane"; DText "'s Profile"]).
Proof. repeat split; vm_compute; reflexivity. Qed.

Example uncheck_then_page :
  change_checkbox (mkChange false) initial =
    Some (inr (mkStore "light" None None))
  /\ root_className (mkStore "light" None None) = Some "light".
Proof. split; vm_compute; reflexivity. Qed.

Example render_needs_ten_levels :
  render 9 initial None E_App = OutOfFuel
  /\ exists r, render 10 initial None E_App = Done r.
Proof. split; [reflexivity | eexists; vm_compute; reflexivity]. Qed.

(** ** Login and logout *)

(** C1.  In every state whose user value is [null], activating the login
    control sets the user value to the default record (Duane with the
    three interests).  The subscribers of the user context are then
    [Header] and [Profile]; the render pass that follows reaches exactly
    them, and delivers the default record to each of them exactly once. *)
Theorem login_transition (s : Store) :
  UserProvider_user s = None ->
  exists s',
    click_button s = Some (inr s')
    /\ UserProvider_user s' =
         Some {| name := "Duane";
                 interests := ["Coding"; "Biking"; "Words ending in 'ing'"] |}
    /\ subscribers s = [C_Header; C_Profile]
    /\ exists log,
         pass_log s s' = Some log
         /\ consumers log = subscribers s
         /\ deliveries C_Header log = [defined (Some defaultUser)]
         /\ deliveries C_Profile log = [defined (Some defaultUser)]
         /\ forall c, In c (subscribers s) ->
              deliveries c log = [defined (Some defaultUser)].
Proof.
  intros E. rewrite click_button_is, subscribers_are, E.
  destruct s as [t a u]; simpl in *; subst u.
  exists (mkStore t a (Some defaultUser)).
  split; [reflexivity|]. split; [reflexivity|]. split; [reflexivity|].
  exists (subtree_calls (Some defaultUser)).
  split; [now apply pass_log_user_write|].
  split; [reflexivity|]. split; [reflexivity|]. split; [reflexivity|].
  intros c Hc. apply (deliveries_subtree c (Some defaultUser) Hc).
Qed.

Lemma login_transition_witness :
  UserProvider_user initial = None
  /\ exists s',
       click_button initial = Some (inr s')
       /\ UserProvider_user s' =
            Some {| name := "Duane";
                    interests :=
                      ["Coding"; "Biking"; "Words ending in 'ing'"] |}
       /\ subscribers initial = [C_Header; C_Profile]
       /\ exists log,
            pass_log initial s' = Some log
            /\ consumers log = subscribers initial
            /\ deliveries C_Header log = [defined (Some defaultUser)]
            /\ deliveries C_Profile log = [defined (Some defaultUser)]
            /\ forall c, In c (subscribers initial) ->
                 deliveries c log = [defined (Some defaultUser)].
Proof.
  split; [reflexivity | apply (login_transition initial); reflexivity].
Defined.

(** C4.  In every state whose user value is a user record, whatever the
    record, activating the logout control sets the user value to [null].
    The subscribers of the user context are then [Header] and [Profile];
    the render pass that follows reaches exactly them, each exactly once,
    with [null]. *)
Theorem logout_transition (s : Store) (u : User) :
  UserProvider_user s = Some u ->
  exists s',
    click_button s = Some (inr s')
    /\ UserProvider_user s' = None
    /\ subscribers s = [C_Header; C_Profile]
    /\ exists log,
         pass_log s s' = Some log
         /\ consumers log = subscribers s
         /\ deliveries C_Header log = [defined None]
         /\ deliveries C_Profile log = [defined None]
         /\ forall c, In c (subscribers s) ->
              deliveries c log = [defined None].
Proof.
  intros E. rewrite click_button_is, subscribers_are, E.
  destruct s as [t a v]; simpl in *; subst v.
  exists (mkStore t a None).
  split; [reflexivity|]. split; [reflexivity|]. split; [reflexivity|].
  exists (subtree_calls None).
  split; [now apply pass_log_user_write|].
  split; [reflexivity|]. split; [reflexivity|]. split; [reflexivity|].
  intros c Hc. apply (deliveries_subtree c None Hc).
Qed.

Lemma logout_transition_witness :
  let s := mkStore "light" None (Some (mkUser "Ada" [])) in
  UserProvider_user s = Some (mkUser "Ada" [])
  /\ exists s',
       click_button s = Some (inr s')
       /\ UserProvider_user s' = None
       /\ subscribers s = [C_Header; C_Profile]
       /\ exists log,
            pass_log s s' = Some log
            /\ consumers log = subscribers s
            /\ deliveries C_Header log = [defined None]
            /\ deliveries C_Profile log = [defined None]
            /\ forall c, In c (subscribers s) ->
                 deliveries c log = [defined None].
Proof.
  split;
    [reflexivity
    | apply (logout_transition (mkStore "light" None (Some (mkUser "Ada" [])))
              (mkUser "Ada" []));
      reflexivity].
Defined.

(** ** Rendering *)

(** C2.  Under a provider whose user value is [v], [Profile] returns the
    placeholder heading exactly when [v] is [null], and exactly when [v]
    is a user record [u] it returns the profile view of [u]: a heading
    whose text is the name followed by "'s Profile", and an [Interests]
    element that receives the record's interests list itself and the
    theme.  This covers a record with no interests. *)
Theorem Profile_render_consistency
    (v : option User) (set : JSField (option User -> Handler))
    (theme : string) :
  let provided := Some {| user := defined v; setUser := set |} in
  (Profile provided theme = inr placeholder <-> v = None)
  /\ (forall u, Profile provided theme = inr (profile_view u theme)
                <-> v = Some u)
  /\ (forall u,
        profile_view u theme =
          Host "div" []
            [Host "h2" [] [Text (name u); Text "'s Profile"];
             E_Interests (interests u) theme]
        /\ heading_text [Text (name u); Text "'s Profile"] =
             name u ++ "'s Profile")
  /\ (forall n,
        Profile (Some {| user := defined (Some (mkUser n []));
                         setUser := set |}) theme =
        inr (Host "div" []
               [Host "h2" [] [Text n; Text "'s Profile"];
                E_Interests [] theme])).
Proof.
  simpl. split; [|split; [|split]].
  - split.
    + destruct v as [u|]; [discriminate | reflexivity].
    + intros ->. reflexivity.
  - intros u. split.
    + destruct v as [w|]; [|discriminate].
      unfold Profile, profile_view; simpl. intros E.
      destruct w as [wn wi], u as [un ui]; simpl in E.
      now inversion E.
    + intros ->. reflexivity.
  - intros u. split; reflexivity.
  - intros n. reflexivity.
Qed.

(** C6.  Whatever the user value, the page's button is labelled "Login"
    exactly when the value is [null] and "Logout" exactly when it is a
    user record. *)
Theorem Header_label (s : Store) :
  (button_label s = Some [DText "Login"] <-> UserProvider_user s = None)
  /\ (button_label s = Some [DText "Logout"]
      <-> exists u, UserProvider_user s = Some u).
Proof.
  rewrite button_label_is.
  destruct (UserProvider_user s) as [u|]; split; split.
  - discriminate.
  - discriminate.
  - intros _. now exists u.
  - reflexivity.
  - reflexivity.
  - reflexivity.
  - discriminate.
  - intros [w E]. discriminate.
Qed.

(** C3.  In the freshly mounted tree the user slot of the provider holds
    [null] and the theme slot holds "dark"; mounting completes, every
    consumer of the user context reads [null], and the root carries the
    class "dark". *)
Theorem initial_state :
  UserProvider_user initial = None
  /\ App_theme initial = "dark"
  /\ (exists log,
        mount_log initial = Some log
        /\ consumers log = [C_Header; C_Profile]
        /\ deliveries C_Header log = [defined None]
        /\ deliveries C_Profile log = [defined None])
  /\ root_className initial = Some "dark".
Proof.
  split; [reflexivity|]. split; [reflexivity|].
  split; [|vm_compute; reflexivity].
  exists (mkCall C_App None :: subtree_calls None).
  split; [apply (mount_log_is initial)|]. repeat split.
Qed.

(** ** Outside a provider *)

(** C5, as stated, fails: outside any provider neither the accessor nor
    the two consumers built on it report an error. *)
Lemma missing_provider_not_reported :
  ~ (exists err,
       destructure "useContext(...)" (useContext UserContext None) = inl err)
  /\ ~ (exists err, Profile None "dark" = inl err)
  /\ ~ (exists err, Header None "dark" App_setTheme = inl err).
Proof.
  repeat split; intros [err E]; discriminate E.
Qed.

(** C5, amended.  Outside any provider the accessor does not fail at the
    first read: it returns the context's default value, an empty object
    whose [user] and [setUser] are both undefined.  [Profile] then returns
    the placeholder and [Header] a "Login" control; the failure only shows
    when that control is activated, as a call of something that is not a
    function. *)
Theorem missing_provider_default (theme : string)
    (setTheme : string -> Handler) :
  useContext UserContext None =
    defined {| user := undefined; setUser := undefined |}
  /\ Profile None theme = inr placeholder
  /\ exists h,
       Header None theme setTheme =
         inr (Host "header" []
                [Host "h1" [] [Text "React Context"];
                 Host "nav" []
                   [E_ThemedButton theme [onClick h] [Text "Login"];
                    E_DarkModeToggle theme setTheme]])
       /\ forall s, h s = inl (NotAFunction "setUser").
Proof.
  split; [reflexivity|]. split; [reflexivity|].
  eexists. split; [reflexivity|]. intros s. reflexivity.
Qed.

(** ** Invariants of the reachable states *)

(** C7.  In every reachable state the theme is "dark" or "light": it
    starts as "dark"; changing the checkbox writes "dark" when the box is
    checked and "light" otherwise; and an event of any control of the page
    that changes the theme is such a change of the checkbox. *)
Theorem theme_two_valued (s : Store) :
  reachable s ->
  (App_theme s = "dark" \/ App_theme s = "light")
  /\ App_theme initial = "dark"
  /\ (forall e,
        handleToggleTheme App_setTheme e s =
          inr (mkStore (if target_checked e then "dark" else "light")
                 (App_user s) (UserProvider_user s))
        /\ exists s',
             change_checkbox e s = Some (inr s')
             /\ App_theme s' = if target_checked e then "dark" else "light")
  /\ (forall a s',
        In a (controls s) -> fires a s s' ->
        App_theme s' = App_theme s
        \/ exists e, change_checkbox e s = Some (inr s')).
Proof.
  intros R. split; [apply (reachable_inv s R)|].
  split; [reflexivity|]. split.
  - intros e. split; [reflexivity|].
    rewrite change_checkbox_is. eexists. split; reflexivity.
  - intros a s' Hin Hf.
    destruct (controls_fire s s' a Hin Hf) as [Hc|Hc].
    + left. rewrite click_button_is in Hc. now inversion Hc.
    + now right.
Qed.

Lemma theme_two_valued_witness :
  reachable initial
  /\ (App_theme initial = "dark" \/ App_theme initial = "light")
  /\ App_theme initial = "dark"
  /\ (forall e,
        handleToggleTheme App_setTheme e initial =
          inr (mkStore (if target_checked e then "dark" else "light")
                 (App_user initial) (UserProvider_user initial))
        /\ exists s',
             change_checkbox e initial = Some (inr s')
             /\ App_theme s' = if target_checked e then "dark" else "light")
  /\ (forall a s',
        In a (controls initial) -> fires a initial s' ->
        App_theme s' = App_theme initial
        \/ exists e, change_checkbox e initial = Some (inr s')).
Proof.
  split; [exact reach_initial | apply (theme_two_valued initial)].
  exact reach_initial.
Defined.

(** C9.  In every state reachable through the controls of the page, the
    user value is [null] or the default record (Duane with the three
    interests). *)
Theorem user_null_or_default (s : Store) :
  reachable s ->
  UserProvider_user s = None
  \/ UserProvider_user s =
       Some {| name := "Duane";
               interests := ["Coding"; "Biking"; "Words ending in 'ing'"] |}.
Proof.
  intros R. apply (reachable_inv s R).
Qed.

(** A state reached by one activation of the login control. *)
Lemma reachable_logged_in :
  reachable (mkStore "dark" None (Some defaultUser)).
Proof.
  apply (reach_event initial _
           (onClick (handleLogin (defined None)
                       (defined UserProvider_setUser)))).
  - exact reach_initial.
  - left. reflexivity.
  - reflexivity.
Defined.

Lemma user_null_or_default_witness :
  reachable (mkStore "dark" None (Some defaultUser))
  /\ (UserProvider_user (mkStore "dark" None (Some defaultUser)) = None
      \/ UserProvider_user (mkStore "dark" None (Some defaultUser)) =
           Some {| name := "Duane";
                   interests :=
                     ["Coding"; "Biking"; "Words ending in 'ing'"] |}).
Proof.
  split;
    [exact reachable_logged_in
    | apply (user_null_or_default (mkStore "dark" None (Some defaultUser)));
      exact reachable_logged_in].
Defined.

(** C10.  From every reachable state, activating the login/logout control
    twice in a row, with nothing in between, brings the user value back to
    what it was; the whole store is back to what it was. *)
Theorem login_logout_involution (s : Store) :
  reachable s ->
  exists s1 s2,
    click_button s = Some (inr s1)
    /\ click_button s1 = Some (inr s2)
    /\ UserProvider_user s2 = UserProvider_user s
    /\ s2 = s.
Proof.
  intros R. destruct (reachable_inv s R) as [[E|E] _].
  - destruct s as [t a u]; simpl in E; subst u.
    exists (mkStore t a (Some defaultUser)), (mkStore t a None).
    repeat split.
  - destruct s as [t a u]; simpl in E; subst u.
    exists (mkStore t a None), (mkStore t a (Some defaultUser)).
    repeat split.
Qed.

Lemma login_logout_involution_witness :
  reachable initial
  /\ exists s1 s2,
       click_button initial = Some (inr s1)
       /\ click_button s1 = Some (inr s2)
       /\ UserProvider_user s2 = UserProvider_user initial
       /\ s2 = initial.
Proof.
  split; [exact reach_initial | apply (login_logout_involution initial)].
  exact reach_initial.
Defined.

(** ** Isolation of the two states *)

(** C8, as stated, fails in its last part: writing the theme re-renders
    the whole tree, and with it the components subscribed to the user
    context. *)
Lemma theme_write_invokes_user_consumers :
  exists s' log,
    change_checkbox (mkChange false) initial = Some (inr s')
    /\ pass_log initial s' = Some log
    /\ ~ never_invokes (subscribers initial) log.
Proof.
  exists (mkStore "light" None None).
  exists (mkCall C_App None :: subtree_calls None).
  split; [apply (change_checkbox_is (mkChange false) initial)|].
  split; [apply pass_log_theme_write; discriminate|].
  rewrite subscribers_are.
  intros N. apply (N C_Header).
  - left. reflexivity.
  - right. right. left. reflexivity.
Qed.

(** C8, amended.  Activating the login/logout control changes the user
    value only: the theme and the other slot are left as they were, and
    the pass that follows does not call [App], the owner of the theme
    state.  Changing the checkbox changes the theme only: both user slots
    are left as they were.  When the theme did change, the pass that
    follows calls the consumers of the user context too, each once, and
    each reads the unchanged user value. *)
Theorem isolation (s : Store) :
  (exists s',
     click_button s = Some (inr s')
     /\ App_theme s' = App_theme s
     /\ App_user s' = App_user s
     /\ exists log,
          pass_log s s' = Some log /\ ~ In C_App (invoked log))
  /\ (forall e, exists s',
        change_checkbox e s = Some (inr s')
        /\ UserProvider_user s' = UserProvider_user s
        /\ App_user s' = App_user s
        /\ exists log,
             pass_log s s' = Some log
             /\ (App_theme s' <> App_theme s ->
                 forall c, In c (subscribers s) ->
                   deliveries c log = [defined (UserProvider_user s)])).
Proof.
  split.
  - rewrite click_button_is. eexists. split; [reflexivity|].
    split; [reflexivity|]. split; [reflexivity|].
    destruct s as [t a u]; simpl.
    eexists. split.
    + apply pass_log_user_write. destruct u; reflexivity.
    + apply App_not_in_subtree.
  - intros e. rewrite change_checkbox_is. eexists. split; [reflexivity|].
    split; [reflexivity|]. split; [reflexivity|].
    rewrite subscribers_are. destruct s as [t a u]; simpl.
    destruct (string_dec t (if target_checked e then "dark" else "light"))
      as [E|NE].
    + rewrite <- E. exists []. split; [apply pass_log_nothing|].
      intros ne. now elim ne.
    + exists (mkCall C_App None :: subtree_calls u).
      split; [now apply pass_log_theme_write|].
      intros _ c Hc. apply (deliveries_subtree c u Hc).
Qed.

(** * Further properties of the components *)

(** ** Helper facts *)

Lemma reachable_App_user (s : Store) : reachable s -> App_user s = None.
Proof.
  induction 1 as [|s s' a _ IH Hin Hf].
  - reflexivity.
  - destruct (controls_fire s s' a Hin Hf) as [Hc|[e Hc]].
    + rewrite click_button_is in Hc. now inversion Hc.
    + rewrite change_checkbox_is in Hc. now inversion Hc.
Qed.

Lemma reachable_click (s s' : Store) :
  reachable s -> click_button s = Some (inr s') -> reachable s'.
Proof.
  intros R Hc.
  apply (reach_event s s'
           (onClick (handleLogin (defined (UserProvider_user s))
                       (defined UserProvider_setUser))) R).
  - rewrite controls_are. left. reflexivity.
  - rewrite click_button_is in Hc. inversion Hc.
    destruct s as [t a [u|]]; reflexivity.
Defined.

Lemma reachable_change (e : ChangeEvent) (s s' : Store) :
  reachable s -> change_checkbox e s = Some (inr s') -> reachable s'.
Proof.
  intros R Hc.
  apply (reach_event s s' (onChange (handleToggleTheme App_setTheme)) R).
  - rewrite controls_are. right. left. reflexivity.
  - exists e. rewrite change_checkbox_is in Hc. inversion Hc.
    destruct s as [t a u]; reflexivity.
Defined.

(** ** ThemedButton *)

(** X1.  [ThemedButton] returns a button that keeps the children and the
    click handler of its props.  Its class is the theme when the props
    have no class key.  When they have one it replaces the theme, the
    spread coming last: a string becomes the class, and [undefined]
    leaves the button without a class. *)
Theorem ThemedButton_class_and_props
    (theme : string) (props : list Attr) (children : list Element) :
  exists attrs,
    ThemedButton theme props children = Host "button" attrs children
    /\ get_className attrs =
         match prop_className props with
         | None => Some theme
         | Some (defined c) => Some c
         | Some undefined => None
         end
    /\ get_onClick attrs = get_onClick props.
Proof.
  exists (className theme :: props). split; [reflexivity|]. split.
  - unfold get_className; simpl.
    destruct (prop_className props) as [[|c]|]; reflexivity.
  - simpl. destruct (get_onClick props); reflexivity.
Qed.

(** ** The theme on the page *)

(** X2.  Whatever the store, the theme of [App] is what the root, the
    button and the checkbox show: the root and the button carry it as
    their class, and the checkbox is checked exactly when it is "dark". *)
Theorem theme_reaches_every_view (s : Store) :
  root_className s = Some (App_theme s)
  /\ button_className s = Some (App_theme s)
  /\ checkbox_checked s = Some (String.eqb (App_theme s) "dark").
Proof. destruct s as [t a [[[|c n] i]|]]; repeat split. Qed.

(** X3.  The checkbox is a faithful controlled input: after a change event
    the page shows the box in the state the event reported, and the root
    carries "dark" or "light" accordingly, whatever the theme was. *)
Theorem checkbox_shows_what_was_chosen (e : ChangeEvent) (s : Store) :
  exists s',
    change_checkbox e s = Some (inr s')
    /\ checkbox_checked s' = Some (target_checked e)
    /\ root_className s' =
         Some (if target_checked e then "dark" else "light").
Proof.
  rewrite change_checkbox_is. eexists. split; [reflexivity|].
  destruct s as [t a [[[|c n] i]|]], e as [[|]]; split; reflexivity.
Qed.

(** X4.  Of two change events in a row only the second counts: the store
    they leave is the one the second alone would leave. *)
Theorem last_change_wins (e1 e2 : ChangeEvent) (s : Store) :
  exists s1 s2,
    change_checkbox e1 s = Some (inr s1)
    /\ change_checkbox e2 s1 = Some (inr s2)
    /\ change_checkbox e2 s = Some (inr s2).
Proof.
  rewrite !change_checkbox_is. do 2 eexists. split; [reflexivity|].
  rewrite change_checkbox_is. split; reflexivity.
Qed.

(** X5.  The button and the checkbox commute: clicking and then changing
    leaves the same store as changing and then clicking. *)
Theorem click_and_change_commute (e : ChangeEvent) (s : Store) :
  exists s1 s2 s',
    click_button s = Some (inr s1)
    /\ change_checkbox e s1 = Some (inr s')
    /\ change_checkbox e s = Some (inr s2)
    /\ click_button s2 = Some (inr s').
Proof.
  rewrite click_button_is, change_checkbox_is. do 3 eexists.
  split; [reflexivity|]. rewrite change_checkbox_is, click_button_is.
  repeat split.
Qed.

(** ** The user value *)

(** X6.  The [user] state that [App] itself declares is never written: in
    every reachable state it still holds [null]. *)
Theorem App_user_is_dead (s : Store) :
  reachable s -> App_user s = None.
Proof. apply reachable_App_user. Qed.

Lemma App_user_is_dead_witness :
  reachable (mkStore "light" None (Some defaultUser))
  /\ App_user (mkStore "light" None (Some defaultUser)) = None.
Proof.
  assert (reachable (mkStore "light" None (Some defaultUser))) as R.
  { apply (reachable_change (mkChange false)
             (mkStore "dark" None (Some defaultUser))).
    - apply (reachable_click initial); [exact reach_initial | reflexivity].
    - reflexivity. }
  split; [exact R | apply (App_user_is_dead _ R)].
Defined.

(** X7.  [Interests] is called exactly once when there is a user, with
    that user's interests and the theme of [App], and not at all when the
    user value is [null]. *)
Theorem Interests_only_when_logged_in (s : Store) :
  exists log,
    mount_log s = Some log
    /\ calls_of C_Interests log =
         match UserProvider_user s with Some _ => 1 | None => 0 end
    /\ interests_on_page s =
         match UserProvider_user s with
         | Some u => [(interests u, App_theme s)]
         | None => []
         end.
Proof.
  rewrite mount_log_is. eexists. split; [reflexivity|].
  destruct s as [t a [[[|c n] i]|]]; split; reflexivity.
Qed.

(** X8.  The click handler of a page is fixed by the render that built
    it: run against any store, it writes [null] if that render saw a user
    and the default record if it did not, and leaves the theme and the
    other slot of the store it runs against as they are.  So running the
    same handler twice leaves what running it once leaves. *)
Theorem click_handler_is_closed_over_render (s : Store) :
  exists h,
    button_handler s = Some h
    /\ (forall s2,
          h s2 =
          inr (mkStore (App_theme s2) (App_user s2)
                 (match UserProvider_user s with
                  | Some _ => None
                  | None => Some defaultUser
                  end)))
    /\ (forall s2 s3, h s2 = inr s3 -> h s3 = inr s3).
Proof.
  exists (handleLogin (defined (UserProvider_user s))
            (defined UserProvider_setUser)).
  split; [destruct s as [t a [[[|c n] i]|]]; reflexivity|].
  assert (forall s2,
            handleLogin (defined (UserProvider_user s))
              (defined UserProvider_setUser) s2 =
            inr (mkStore (App_theme s2) (App_user s2)
                   (match UserProvider_user s with
                    | Some _ => None
                    | None => Some defaultUser
                    end))) as Hh
    by (intros s2; destruct (UserProvider_user s); reflexivity).
  split; [exact Hh|].
  intros s2 s3 E. rewrite Hh in E. inversion E; subst.
  rewrite Hh. reflexivity.
Qed.

(** X9.  Two activations of the button in a row leave [null] where there
    was [null] and the default record where there was any record.  Hence
    they give back the store they started from exactly when its user
    value was [null] or the default record. *)
Theorem double_click (s : Store) :
  exists s1 s2,
    click_button s = Some (inr s1)
    /\ click_button s1 = Some (inr s2)
    /\ UserProvider_user s2 =
         match UserProvider_user s with
         | Some _ => Some defaultUser
         | None => None
         end
    /\ (s2 = s <->
        UserProvider_user s = None
        \/ UserProvider_user s = Some defaultUser).
Proof.
  rewrite click_button_is. do 2 eexists. split; [reflexivity|].
  rewrite click_button_is. split; [reflexivity|].
  destruct s as [t a [u|]]; simpl; split; try reflexivity; split.
  - intros E. right. now inversion E.
  - intros [E|E]; [discriminate | now inversion E].
  - intros _. now left.
  - reflexivity.
Qed.

(** ** Wiring *)

(** X10.  In every state the page carries exactly two handlers, in this
    order: the click handler of the button, which is [handleLogin] over
    the provider's current user value and the provider's own setter, and
    the change handler of the checkbox, which is [handleToggleTheme] over
    the theme setter of [App], handed down through [Header] unchanged. *)
Theorem page_wiring (s : Store) :
  controls s =
    [onClick (handleLogin (defined (UserProvider_user s))
                (defined UserProvider_setUser));
     onChange (handleToggleTheme App_setTheme)]
  /\ button_handler s =
       Some (handleLogin (defined (UserProvider_user s))
               (defined UserProvider_setUser)).
Proof.
  split;
    [apply controls_are | destruct s as [t a [[[|c n] i]|]]; reflexivity].
Qed.

(** X11.  The two consumers of the user context always agree.  When the
    user value is [null] the button says "Login" and the heading is the
    placeholder; when it is a record the button says "Logout" and the
    heading holds that record's name followed by "'s Profile", the name
    leaving no text node when it is the empty string. *)
Theorem Header_and_Profile_agree (s : Store) :
  match UserProvider_user s with
  | None =>
      button_label s = Some [DText "Login"]
      /\ profile_heading s = Some [DText "Please Login To View Profile"]
  | Some u =>
      button_label s = Some [DText "Logout"]
      /\ profile_heading s =
           Some (match name u with
                 | EmptyString => [DText "'s Profile"]
                 | String _ _ => [DText (name u); DText "'s Profile"]
                 end)
  end.
Proof. destruct s as [t a [[[|c n] i]|]]; split; reflexivity. Qed.

(** ** The reachable states *)

(** X12.  The states reachable through the controls are exactly the four
    combinations of a theme "dark" or "light" with a user value [null] or
    the default record, the state that [App] declares for a user staying
    [null]. *)
Theorem four_reachable_states (s : Store) :
  reachable s <->
  (App_theme s = "dark" \/ App_theme s = "light")
  /\ App_user s = None
  /\ (UserProvider_user s = None
      \/ UserProvider_user s = Some defaultUser).
Proof.
  split.
  - intros R. destruct (reachable_inv s R) as [Hu Ht].
    split; [exact Ht|]. split; [now apply reachable_App_user | exact Hu].
  - destruct s as [t a u]; simpl. intros [Ht [-> Hu]].
    assert (reachable (mkStore t None None)) as R0.
    { destruct Ht as [->| ->].
      - exact reach_initial.
      - apply (reachable_change (mkChange false) initial);
          [exact reach_initial | reflexivity]. }
    destruct Hu as [->| ->]; [exact R0|].
    apply (reachable_click (mkStore t None None)); [exact R0|].
    apply click_button_is.
Qed.
